(** * CausaDB node client: the [CausaDB] class of src/causadb.ts

    A shallow embedding of the client class and the properties of its
    methods.  The class holds one mutable field, [tokenSecret]; every method
    but [addData] awaits an HTTP request made with [axios.get].  Methods are
    computations over a world made of the object store (the client objects,
    addressed by reference, so that handles alias their client) and the log
    of the requests sent so far.  The service is a parameter: an arbitrary
    function from the requests already sent and the request at hand to what
    the awaited promise settles to. *)

From stdpp Require Import base numbers option list strings gmap.

Open Scope string_scope.

(** ** Objects *)

(** A reference to a [CausaDB] object. *)
Definition loc := positive.

(** [public tokenSecret: string | null] *)
Record CausaDB := { tokenSecret : option string }.

(** Modelled from the spec: the [Data] class of ./data is not under src/.
    Section 3 gives it a name and a reference to its owning client;
    [new Data(name, client)] is the construction of that pair. *)
Record Data := { data_name : string; data_client : loc }.

(** Modelled from the spec: the [Model] class of ./model is not under src/.
    Section 3 gives it a name and a reference to its owning client. *)
Record Model := { model_name : string; model_client : loc }.

(** ** Transport *)

(** An entry [{ name }] of a listing. *)
Record Spec := { name : string }.

(** The JSON body of a response, as far as the client reads it:
    [data.models] and [data.data], each possibly undefined. *)
Record Body := { body_models : option (list Spec); body_data : option (list Spec) }.

(** What a fulfilled [axios.get] promise carries. *)
Record Response := { status : Z; data : Body }.

(** What a rejected [axios.get] promise carries: a message and, when the
    service answered, the status of its answer. *)
Record AxiosError := { axios_message : string; axios_status : option Z }.

Inductive outcome :=
  | Fulfilled (response : Response)
  | Rejected (reason : AxiosError).

(** A request: [axios.get(url, { headers: { token } })], or the remote
    create call of the model factory (see [Model_create]). *)
Inductive request :=
  | GET (url : string) (token : option string)
  | CREATE_MODEL (modelName : string) (token : option string).

(** ** Exceptions and computations *)

Inductive exn :=
  | Error (message : string)
  | AxiosErr (reason : AxiosError)
  | TypeError (message : string).

Inductive completion (A : Type) :=
  | Normal (value : A)
  | Throw (e : exn).
Arguments Normal {A} value.
Arguments Throw {A} e.

Record world := { objects : gmap loc CausaDB; sent : list request }.

Definition M (A : Type) : Type := world → completion A * world.

Definition ret {A} (a : A) : M A := λ w, (Normal a, w).

Definition throw {A} (e : exn) : M A := λ w, (Throw e, w).

Definition bind {A B} (m : M A) (k : A → M B) : M B :=
  λ w, match m w with
       | (Normal a, w') => k a w'
       | (Throw e, w') => (Throw e, w')
       end.

(** [try { m } catch (error) { h error }] *)
Definition try_catch {A} (m : M A) (h : exn → M A) : M A :=
  λ w, match m w with
       | (Normal a, w') => (Normal a, w')
       | (Throw e, w') => h e w'
       end.

Notation "'let!' x ':=' m 'in' k" := (bind m (λ x, k))
  (at level 10, x name, m at level 100, k at level 200, only parsing).
Notation "'do!' m 'in' k" := (bind m (λ _, k))
  (at level 10, m at level 100, k at level 200, only parsing).

(** How [Promise.all] settles from the completions of its members: the
    values in the order of the members, or a rejection as soon as a member is
    rejected. *)
Definition all_settle {A} (c : completion A) (cs : completion (list A)) : completion (list A) :=
  match c, cs with
  | Normal a, Normal l => Normal (a :: l)
  | Throw e, _ => Throw e
  | Normal _, Throw e => Throw e
  end.

(** [Promise.all(ps)]: every member has been started by the time the array
    is built, so every member runs whether or not another one is rejected. *)
Fixpoint Promise_all {A} (ps : list (M A)) : M (list A) :=
  match ps with
  | [] => ret []
  | p :: ps' =>
      λ w, let '(c, w1) := p w in
           let '(cs, w2) := Promise_all ps' w1 in
           (all_settle c cs, w2)
  end.

(** [this.tokenSecret] *)
Definition get_tokenSecret (this : loc) : M (option string) :=
  λ w, match objects w !! this with
       | Some c => (Normal (tokenSecret c), w)
       | None => (Throw (TypeError "Cannot read properties of undefined"), w)
       end.

(** [this.tokenSecret = v] *)
Definition set_tokenSecret (this : loc) (v : string) : M unit :=
  λ w, match objects w !! this with
       | Some _ =>
           (Normal (), {| objects := <[this := {| tokenSecret := Some v |}]> (objects w);
                          sent := sent w |})
       | None => (Throw (TypeError "Cannot set properties of undefined"), w)
       end.

(** [new CausaDB()]: a new object, at a reference no object has yet, whose
    constructor body is [this.tokenSecret = null]. *)
Definition new_CausaDB : M loc :=
  λ w, let this := fresh (dom (objects w)) in
       (Normal this, {| objects := <[this := {| tokenSecret := None |}]> (objects w);
                        sent := sent w |}).

(** [response.data.models] and [response.data.data] as arrays: calling
    [.map] on an undefined property throws. *)
Definition array_of (field : option (list Spec)) : M (list Spec) :=
  match field with
  | Some specs => ret specs
  | None => throw (TypeError "Cannot read properties of undefined")
  end.

(** The error kinds of the spec, as the errors the client constructs. *)
Definition AuthenticationError : exn := Error "Invalid token".
Definition ServerRequestError : exn := Error "CausaDB server request failed".
Definition NotFoundError (dataName : string) : exn :=
  Error ("Data " +:+ dataName +:+ " not found").

(** The world once a request has left: the request is appended to the log,
    the objects are as they were. *)
Definition logged (rq : request) (w : world) : world :=
  {| objects := objects w; sent := sent w ++ [rq] |}.

(** ** Example services and an example world *)

(** A service that answers every request with status 200 and the given
    listings. *)
Definition service_ok (models datas : list string) : list request → request → outcome :=
  λ _ _, Fulfilled {| status := 200;
                      data := {| body_models := Some (map Build_Spec models);
                                 body_data := Some (map Build_Spec datas) |} |}.

(** A service that turns every request down with status 401, which axios
    reports by rejecting the promise. *)
Definition service_unauthorized : list request → request → outcome :=
  λ _ _, Rejected {| axios_message := "Request failed with status code 401";
                     axios_status := Some 401%Z |}.

(** A service that answers every request with status 204 and an empty body. *)
Definition service_no_content : list request → request → outcome :=
  λ _ _, Fulfilled {| status := 204;
                      data := {| body_models := None; body_data := None |} |}.

(** One freshly constructed client, [new CausaDB()], and nothing sent. *)
Definition client0 : loc := 1%positive.
Definition world0 : world :=
  {| objects := {[ client0 := {| tokenSecret := None |} ]}; sent := [] |}.

(** A service that answers every [axios.get] with status 200 and the models
    "a" and "b", and turns down every create call of the model factory. *)
Definition service_listing_only : list request → request → outcome :=
  λ history rq, match rq with
                | GET _ _ => service_ok ["a"; "b"] [] history rq
                | CREATE_MODEL _ _ => service_unauthorized history rq
                end.

(** A service that accepts the first request it gets and turns down every
    later one with status 401. *)
Definition service_first_only : list request → request → outcome :=
  λ history rq, match history with
                | [] => service_ok [] [] history rq
                | _ :: _ => service_unauthorized history rq
                end.

(** Two clients, the second one authenticated, and nothing sent. *)
Definition client1 : loc := 2%positive.
Definition world1 : world :=
  {| objects := <[client1 := {| tokenSecret := Some "other-secret" |}]> (objects world0);
     sent := [] |}.

(** ** Vocabulary of the properties *)

Definition is_fulfilled (o : outcome) : bool :=
  match o with Fulfilled _ => true | Rejected _ => false end.

(** An outcome of the account check other than a response of status 200. *)
Definition non_200 (o : outcome) : Prop :=
  match o with
  | Fulfilled response => status response ≠ 200%Z
  | Rejected _ => True
  end.

Definition model_handle (this : loc) (modelSpec : Spec) : Model :=
  {| model_name := name modelSpec; model_client := this |}.

Definition token_of (w : world) (this : loc) : option (option string) :=
  tokenSecret <$> objects w !! this.

(** A computation that leaves the object store, hence every client's
    [tokenSecret], as it found it, however it completes. *)
Definition frames {A} (m : M A) : Prop := ∀ w, objects (m w).2 = objects w.

(** A computation that only appends to the log of requests. *)
Definition grows {A} (m : M A) : Prop := ∀ w, sent w `prefix_of` sent (m w).2.

Definition example_url : string := "https://causadb.test".

Section Client.

(** [getCausadbUrl()] of ./utils: the base URL, from the environment. *)
Variable causadbUrl : string.

(** The service behind axios: given the requests sent before, what the
    promise of a request settles to. *)
Variable axios : list request → request → outcome.

Definition send (rq : request) : M Response :=
  λ w, match axios (sent w) rq with
       | Fulfilled response => (Normal response, logged rq w)
       | Rejected reason => (Throw (AxiosErr reason), logged rq w)
       end.

(** [await axios.get(url, { headers })] with [headers = { 'token': token }]. *)
Definition axios_get (url : string) (token : option string) : M Response :=
  send (GET url token).

(** Modelled from the spec: [Model.create] of ./model is not under src/.
    Section 4.1: the factory "performs a remote create call, returning a
    local handle keyed by name"; section 2: each call carries the client's
    stored token; section 7: a non-success outcome of a model call is a
    server-request failure.  It does not write the client. *)
Definition Model_create (modelName : string) (client : loc) : M Model :=
  let! token := get_tokenSecret client in
  do! try_catch (send (CREATE_MODEL modelName token)) (λ _, throw ServerRequestError) in
  ret {| model_name := modelName; model_client := client |}.

Definition setToken (this : loc) (tokenSecret : string) : M bool :=
  let! response := axios_get (causadbUrl +:+ "/account") (Some tokenSecret) in
  if decide (status response = 200%Z) then
    do! set_tokenSecret this tokenSecret in
    ret true
  else
    throw (Error "Invalid token").

Definition createModel (this : loc) (modelName : string) : M Model :=
  Model_create modelName this.

Definition addData (this : loc) (dataName : string) : M Data :=
  ret {| data_name := dataName; data_client := this |}.

(** The factory's promise is returned from inside the [try] without being
    awaited there: its rejection is not seen by the [catch]. *)
Definition getModel (this : loc) (modelName : string) : M Model :=
  let! token := get_tokenSecret this in
  do! try_catch
        (do! axios_get (causadbUrl +:+ "/models/" +:+ modelName) token in ret ())
        (λ _, throw (Error "CausaDB server request failed")) in
  Model_create modelName this.

Definition listModels (this : loc) : M (list Model) :=
  let! token := get_tokenSecret this in
  try_catch
    (let! response := axios_get (causadbUrl +:+ "/models") token in
     let! specs := array_of (body_models (data response)) in
     Promise_all (map (λ modelSpec, Model_create (name modelSpec) this) specs))
    (λ _, throw (Error "CausaDB server request failed")).

Definition getData (this : loc) (dataName : string) : M Data :=
  let! token := get_tokenSecret this in
  try_catch
    (let! data_list := axios_get (causadbUrl +:+ "/data") token in
     let! specs := array_of (body_data (data data_list)) in
     let data_names := map name specs in
     if decide (dataName ∈ data_names) then
       ret {| data_name := dataName; data_client := this |}
     else
       throw (Error ("Data " +:+ dataName +:+ " not found")))
    (λ _, throw (Error "CausaDB server request failed")).

Definition listData (this : loc) : M (list Data) :=
  let! token := get_tokenSecret this in
  try_catch
    (let! response := axios_get (causadbUrl +:+ "/data") token in
     let! specs := array_of (body_data (data response)) in
     ret (map (λ dataSpec, {| data_name := name dataSpec; data_client := this |}) specs))
    (λ _, throw (Error "CausaDB client failed to connect to server")).

(** Every create call of the factory, made in the order of the listing
    after [history], is answered. *)
Fixpoint creates_accepted (history : list request) (token : option string)
    (specs : list Spec) : bool :=
  match specs with
  | [] => true
  | modelSpec :: rest =>
      let rq := CREATE_MODEL (name modelSpec) token in
      is_fulfilled (axios history rq) && creates_accepted (history ++ [rq]) token rest
  end.

(** * Properties *)

(** ** Stepping through a computation *)

Lemma bind_Normal {A B} (m : M A) (k : A → M B) w a w' :
  m w = (Normal a, w') → bind m k w = k a w'.
Proof. intros H. unfold bind. by rewrite H. Qed.

Lemma bind_Throw {A B} (m : M A) (k : A → M B) w e w' :
  m w = (Throw e, w') → bind m k w = (Throw e, w').
Proof. intros H. unfold bind. by rewrite H. Qed.

Lemma try_catch_Normal {A} (m : M A) h w a w' :
  m w = (Normal a, w') → try_catch m h w = (Normal a, w').
Proof. intros H. unfold try_catch. by rewrite H. Qed.

Lemma try_catch_Throw {A} (m : M A) h w e w' :
  m w = (Throw e, w') → try_catch m h w = h e w'.
Proof. intros H. unfold try_catch. by rewrite H. Qed.

Lemma get_tokenSecret_Some this w c :
  objects w !! this = Some c → get_tokenSecret this w = (Normal (tokenSecret c), w).
Proof. intros H. unfold get_tokenSecret. by rewrite H. Qed.

Lemma token_of_insert this s objs log :
  token_of {| objects := <[this := {| tokenSecret := Some s |}]> objs; sent := log |} this =
    Some (Some s).
Proof. unfold token_of; simpl. by rewrite lookup_insert_eq. Qed.

(** ** Frame rules *)

Lemma frames_ret {A} (a : A) : frames (ret a).
Proof. done. Qed.

Lemma frames_throw {A} e : frames (@throw A e).
Proof. done. Qed.

Lemma frames_bind {A B} (m : M A) (k : A → M B) :
  frames m → (∀ a, frames (k a)) → frames (bind m k).
Proof.
  intros Hm Hk w. unfold bind. specialize (Hm w).
  destruct (m w) as [[a|e] w1]; simpl in *; [|done].
  by rewrite Hk.
Qed.

Lemma frames_try_catch {A} (m : M A) h :
  frames m → (∀ e, frames (h e)) → frames (try_catch m h).
Proof.
  intros Hm Hh w. unfold try_catch. specialize (Hm w).
  destruct (m w) as [[a|e] w1]; simpl in *; [done|].
  by rewrite Hh.
Qed.

Lemma frames_get_tokenSecret this : frames (get_tokenSecret this).
Proof. intros w. unfold get_tokenSecret. by destruct (objects w !! this). Qed.

Lemma frames_array_of field : frames (array_of field).
Proof. by destruct field. Qed.

Lemma frames_Promise_all {A} (ps : list (M A)) :
  Forall frames ps → frames (Promise_all ps).
Proof.
  induction 1 as [|p ps Hp _ IH]; [done|].
  intros w. simpl. specialize (Hp w).
  destruct (p w) as [c w1]. specialize (IH w1).
  destruct (Promise_all ps w1) as [cs w2]. simpl in *. congruence.
Qed.

Create HintDb frame.
#[local] Hint Resolve frames_ret frames_throw frames_bind frames_try_catch
  frames_get_tokenSecret frames_array_of frames_Promise_all : frame.

Lemma send_Fulfilled rq w response :
  axios (sent w) rq = Fulfilled response → send rq w = (Normal response, logged rq w).
Proof. intros H. unfold send. by rewrite H. Qed.

Lemma send_Rejected rq w reason :
  axios (sent w) rq = Rejected reason → send rq w = (Throw (AxiosErr reason), logged rq w).
Proof. intros H. unfold send. by rewrite H. Qed.

Lemma frames_send rq : frames (send rq).
Proof. intros w. unfold send. by destruct (axios (sent w) rq). Qed.

Lemma frames_Model_create modelName client : frames (Model_create modelName client).
Proof.
  unfold Model_create.
  auto 6 using frames_send with frame.
Qed.

(** *** setToken *)

Lemma setToken_200 this s w c response :
  objects w !! this = Some c →
  axios (sent w) (GET (causadbUrl +:+ "/account") (Some s)) = Fulfilled response →
  status response = 200%Z →
  setToken this s w =
    (Normal true,
     {| objects := <[this := {| tokenSecret := Some s |}]> (objects w);
        sent := sent w ++ [GET (causadbUrl +:+ "/account") (Some s)] |}).
Proof.
  intros Hthis Hrq Hst. unfold setToken, axios_get.
  rewrite (bind_Normal _ _ _ _ _ (send_Fulfilled _ _ _ Hrq)).
  rewrite decide_True by done.
  unfold bind, set_tokenSecret, logged; simpl. by rewrite Hthis.
Qed.

(** C3. When the account check answers with status 200, [setToken s]
    returns [true] and the client's [tokenSecret] is [s] afterwards; the
    only request sent is the account check. *)
Theorem setToken_accepted this s w c response :
  objects w !! this = Some c →
  axios (sent w) (GET (causadbUrl +:+ "/account") (Some s)) = Fulfilled response →
  status response = 200%Z →
  ∃ w', setToken this s w = (Normal true, w') ∧
        token_of w' this = Some (Some s) ∧
        sent w' = (sent w ++ [GET (causadbUrl +:+ "/account") (Some s)])%list.
Proof.
  intros Hthis Hrq Hst. eexists. split; [by eapply setToken_200|].
  split; [apply token_of_insert|done].
Qed.

(** Whenever the account check settles to anything but a response of
    status 200, [setToken s] fails and leaves every client's [tokenSecret]
    as it was; when the promise was fulfilled, with a status other than 200,
    the failure is the "Invalid token" error. *)
Theorem setToken_refused this s w :
  non_200 (axios (sent w) (GET (causadbUrl +:+ "/account") (Some s))) →
  ∃ e w', setToken this s w = (Throw e, w') ∧
          objects w' = objects w ∧
          (is_fulfilled (axios (sent w) (GET (causadbUrl +:+ "/account") (Some s))) = true →
           e = AuthenticationError).
Proof.
  intros Hno. unfold setToken, axios_get.
  destruct (axios (sent w) (GET (causadbUrl +:+ "/account") (Some s)))
    as [response|reason] eqn:Hrq; simpl in Hno.
  - rewrite (bind_Normal _ _ _ _ _ (send_Fulfilled _ _ _ Hrq)).
    rewrite decide_False by done.
    eexists _, _. split; [reflexivity|]. by split.
  - rewrite (bind_Throw _ _ _ _ _ (send_Rejected _ _ _ Hrq)).
    eexists _, _. split; [reflexivity|]. by split.
Qed.

(** C9. A second accepted [setToken] replaces the token stored by the
    first: after [setToken s1] and [setToken s2] both succeed, the client's
    [tokenSecret] is [s2], and so is not [s1] when the two differ. *)
Theorem setToken_overwrites this s1 s2 w c response1 response2 :
  objects w !! this = Some c →
  axios (sent w) (GET (causadbUrl +:+ "/account") (Some s1)) = Fulfilled response1 →
  status response1 = 200%Z →
  axios (sent w ++ [GET (causadbUrl +:+ "/account") (Some s1)])
        (GET (causadbUrl +:+ "/account") (Some s2)) = Fulfilled response2 →
  status response2 = 200%Z →
  ∃ w1 w2, setToken this s1 w = (Normal true, w1) ∧
           token_of w1 this = Some (Some s1) ∧
           setToken this s2 w1 = (Normal true, w2) ∧
           token_of w2 this = Some (Some s2) ∧
           (s1 ≠ s2 → token_of w2 this ≠ Some (Some s1)).
Proof.
  intros Hthis Hrq1 Hst1 Hrq2 Hst2.
  pose proof (setToken_200 this s1 w c response1 Hthis Hrq1 Hst1) as Hrun1.
  set (w1 := {| objects := <[this := {| tokenSecret := Some s1 |}]> (objects w);
                sent := sent w ++ [GET (causadbUrl +:+ "/account") (Some s1)] |}) in *.
  assert (Hthis1 : objects w1 !! this = Some {| tokenSecret := Some s1 |})
    by (simpl; apply lookup_insert_eq).
  pose proof (setToken_200 this s2 w1 _ response2 Hthis1 Hrq2 Hst2) as Hrun2.
  eexists w1, _.
  repeat split; [exact Hrun1|apply token_of_insert|exact Hrun2|apply token_of_insert|].
  intros Hne. rewrite token_of_insert. congruence.
Qed.

(** *** getModel *)

Lemma getModel_rejected this m w c reason :
  objects w !! this = Some c →
  axios (sent w) (GET (causadbUrl +:+ "/models/" +:+ m) (tokenSecret c)) = Rejected reason →
  getModel this m w =
    (Throw ServerRequestError, logged (GET (causadbUrl +:+ "/models/" +:+ m) (tokenSecret c)) w).
Proof.
  intros Hthis Hrq. unfold getModel, axios_get.
  rewrite (bind_Normal _ _ _ _ _ (get_tokenSecret_Some _ _ _ Hthis)).
  apply bind_Throw.
  erewrite try_catch_Throw; [reflexivity|].
  apply bind_Throw, send_Rejected, Hrq.
Qed.

(** C4. When the lookup request of [getModel m] is rejected, for whatever
    reason, [getModel m] fails with the server-request error: no handle is
    returned, the factory is not reached (the lookup is the only request
    sent) and no object is written. *)
Theorem getModel_request_fails this m w c reason :
  objects w !! this = Some c →
  axios (sent w) (GET (causadbUrl +:+ "/models/" +:+ m) (tokenSecret c)) = Rejected reason →
  ∃ w', getModel this m w = (Throw ServerRequestError, w') ∧
        (∀ handle, (getModel this m w).1 ≠ Normal handle) ∧
        sent w' = (sent w ++ [GET (causadbUrl +:+ "/models/" +:+ m) (tokenSecret c)])%list ∧
        objects w' = objects w.
Proof.
  intros Hthis Hrq. rewrite (getModel_rejected _ _ _ _ _ Hthis Hrq).
  eexists. split; [reflexivity|]. by repeat split.
Qed.

(** *** listModels *)

Lemma Model_create_accepted modelName this w c :
  objects w !! this = Some c →
  is_fulfilled (axios (sent w) (CREATE_MODEL modelName (tokenSecret c))) = true →
  Model_create modelName this w =
    (Normal {| model_name := modelName; model_client := this |},
     logged (CREATE_MODEL modelName (tokenSecret c)) w).
Proof.
  intros Hthis Hrq. unfold Model_create.
  rewrite (bind_Normal _ _ _ _ _ (get_tokenSecret_Some _ _ _ Hthis)).
  destruct (axios (sent w) (CREATE_MODEL modelName (tokenSecret c)))
    as [response|] eqn:Hax; [|done].
  erewrite bind_Normal; [reflexivity|].
  apply try_catch_Normal, send_Fulfilled, Hax.
Qed.

Lemma Model_create_Normal modelName this w h w' :
  Model_create modelName this w = (Normal h, w') →
  h = {| model_name := modelName; model_client := this |}.
Proof.
  unfold Model_create, bind, try_catch, get_tokenSecret, send, throw, ret.
  destruct (objects w !! this); [|done].
  destruct (axios _ _); simpl; congruence.
Qed.

Lemma Promise_all_creates_accepted this c specs : ∀ w,
  objects w !! this = Some c →
  creates_accepted (sent w) (tokenSecret c) specs = true →
  Promise_all (map (λ modelSpec, Model_create (name modelSpec) this) specs) w =
    (Normal (map (model_handle this) specs),
     {| objects := objects w;
        sent := sent w ++ map (λ modelSpec, CREATE_MODEL (name modelSpec) (tokenSecret c)) specs |}).
Proof.
  induction specs as [|modelSpec rest IH]; intros w Hthis Hacc; simpl.
  - unfold ret. destruct w; simpl. by rewrite app_nil_r.
  - simpl in Hacc. apply andb_true_iff in Hacc as [Hhd Htl].
    rewrite (Model_create_accepted _ _ _ _ Hthis Hhd).
    rewrite (IH (logged (CREATE_MODEL (name modelSpec) (tokenSecret c)) w)); [|done..].
    simpl. by rewrite <- app_assoc.
Qed.

Lemma Promise_all_creates_Normal this specs : ∀ w handles w',
  Promise_all (map (λ modelSpec, Model_create (name modelSpec) this) specs) w =
    (Normal handles, w') →
  handles = map (model_handle this) specs.
Proof.
  induction specs as [|modelSpec rest IH]; intros w handles w'; simpl.
  - unfold ret. congruence.
  - destruct (Model_create (name modelSpec) this w) as [[h|e] w1] eqn:Hhd;
      destruct (Promise_all _ w1) as [[hs|e'] w2] eqn:Htl; simpl; try done.
    intros [= <- <-]. f_equal.
    + exact (Model_create_Normal _ _ _ _ _ Hhd).
    + exact (IH _ _ _ Htl).
Qed.

Lemma Model_create_refused modelName this w c :
  objects w !! this = Some c →
  is_fulfilled (axios (sent w) (CREATE_MODEL modelName (tokenSecret c))) = false →
  Model_create modelName this w =
    (Throw ServerRequestError, logged (CREATE_MODEL modelName (tokenSecret c)) w).
Proof.
  intros Hthis Hrq. unfold Model_create.
  rewrite (bind_Normal _ _ _ _ _ (get_tokenSecret_Some _ _ _ Hthis)).
  destruct (axios (sent w) (CREATE_MODEL modelName (tokenSecret c)))
    as [|reason] eqn:Hax; [done|].
  apply bind_Throw.
  erewrite try_catch_Throw; [reflexivity|]. apply send_Rejected, Hax.
Qed.

Lemma Promise_all_creates_refused this c specs : ∀ w,
  objects w !! this = Some c →
  creates_accepted (sent w) (tokenSecret c) specs = false →
  ∃ w', Promise_all (map (λ modelSpec, Model_create (name modelSpec) this) specs) w =
          (Throw ServerRequestError, w').
Proof.
  induction specs as [|modelSpec rest IH]; intros w Hthis Hacc; simpl in *; [done|].
  destruct (is_fulfilled (axios (sent w) (CREATE_MODEL (name modelSpec) (tokenSecret c))))
    eqn:Hhd; simpl in Hacc.
  - rewrite (Model_create_accepted _ _ _ _ Hthis Hhd).
    destruct (IH (logged (CREATE_MODEL (name modelSpec) (tokenSecret c)) w) Hthis Hacc)
      as [w' ->].
    by eexists.
  - rewrite (Model_create_refused _ _ _ _ Hthis Hhd).
    destruct (Promise_all _ _) as [cs w']. by eexists.
Qed.

(** C5, as amended. When the listing of models is answered with the
    entries [specs] and the service answers the factory's create call for
    every entry, [listModels] returns one handle per entry, named after the
    entries in the order of the listing and referring to the client, having
    sent the listing and then one create call per entry; when a create call
    is refused, [listModels] returns no handle and fails with the
    server-request error. *)
Theorem listModels_handles this w c response specs :
  objects w !! this = Some c →
  axios (sent w) (GET (causadbUrl +:+ "/models") (tokenSecret c)) = Fulfilled response →
  body_models (data response) = Some specs →
  (creates_accepted (sent w ++ [GET (causadbUrl +:+ "/models") (tokenSecret c)])
                    (tokenSecret c) specs = true →
   ∃ handles,
     listModels this w =
       (Normal handles,
        {| objects := objects w;
           sent := (sent w ++ [GET (causadbUrl +:+ "/models") (tokenSecret c)])
                   ++ map (λ modelSpec, CREATE_MODEL (name modelSpec) (tokenSecret c)) specs |}) ∧
     handles = map (model_handle this) specs ∧
     map model_name handles = map name specs ∧
     length handles = length specs) ∧
  (creates_accepted (sent w ++ [GET (causadbUrl +:+ "/models") (tokenSecret c)])
                    (tokenSecret c) specs = false →
   (listModels this w).1 = Throw ServerRequestError).
Proof.
  intros Hthis Hrq Hbody.
  assert (Hrun : listModels this w =
                 try_catch
                   (Promise_all (map (λ modelSpec, Model_create (name modelSpec) this) specs))
                   (λ _, throw (Error "CausaDB server request failed"))
                   (logged (GET (causadbUrl +:+ "/models") (tokenSecret c)) w)).
  { unfold listModels, axios_get.
    rewrite (bind_Normal _ _ _ _ _ (get_tokenSecret_Some _ _ _ Hthis)).
    unfold try_catch.
    rewrite (bind_Normal _ _ _ _ _ (send_Fulfilled _ _ _ Hrq)).
    rewrite Hbody. reflexivity. }
  split.
  - intros Hacc. eexists. split; [|split; [reflexivity|split]].
    + rewrite Hrun. erewrite try_catch_Normal; [reflexivity|].
      by apply (Promise_all_creates_accepted this c).
    + by rewrite map_map.
    + by rewrite length_map.
  - intros Hacc. rewrite Hrun.
    destruct (Promise_all_creates_refused this c specs
                (logged (GET (causadbUrl +:+ "/models") (tokenSecret c)) w) Hthis Hacc)
      as [w' Hall].
    by erewrite try_catch_Throw by exact Hall.
Qed.

(** *** getData *)

(** C6. When the listing of data is answered and contains [d], [getData d]
    returns the handle named [d] on the client, and the listing is the only
    request sent. *)
Theorem getData_present this d w c response specs :
  objects w !! this = Some c →
  axios (sent w) (GET (causadbUrl +:+ "/data") (tokenSecret c)) = Fulfilled response →
  body_data (data response) = Some specs →
  d ∈ map name specs →
  getData this d w =
    (Normal {| data_name := d; data_client := this |},
     logged (GET (causadbUrl +:+ "/data") (tokenSecret c)) w).
Proof.
  intros Hthis Hrq Hbody Hin. unfold getData, axios_get.
  rewrite (bind_Normal _ _ _ _ _ (get_tokenSecret_Some _ _ _ Hthis)).
  apply try_catch_Normal.
  rewrite (bind_Normal _ _ _ _ _ (send_Fulfilled _ _ _ Hrq)).
  rewrite Hbody. unfold bind, array_of, ret. by rewrite decide_True.
Qed.

(** When the listing is answered and does not contain [d], the not-found
    error thrown inside the [try] is replaced by the [catch]: [getData d]
    fails with the server-request error. *)
Lemma getData_absent this d w c response specs :
  objects w !! this = Some c →
  axios (sent w) (GET (causadbUrl +:+ "/data") (tokenSecret c)) = Fulfilled response →
  body_data (data response) = Some specs →
  d ∉ map name specs →
  getData this d w =
    (Throw ServerRequestError, logged (GET (causadbUrl +:+ "/data") (tokenSecret c)) w).
Proof.
  intros Hthis Hrq Hbody Hin. unfold getData, axios_get.
  rewrite (bind_Normal _ _ _ _ _ (get_tokenSecret_Some _ _ _ Hthis)).
  erewrite try_catch_Throw; [reflexivity|].
  rewrite (bind_Normal _ _ _ _ _ (send_Fulfilled _ _ _ Hrq)).
  rewrite Hbody. unfold bind, array_of, ret. by rewrite decide_False.
Qed.

Lemma getData_request_fails this d w c reason :
  objects w !! this = Some c →
  axios (sent w) (GET (causadbUrl +:+ "/data") (tokenSecret c)) = Rejected reason →
  getData this d w =
    (Throw ServerRequestError, logged (GET (causadbUrl +:+ "/data") (tokenSecret c)) w).
Proof.
  intros Hthis Hrq. unfold getData, axios_get.
  rewrite (bind_Normal _ _ _ _ _ (get_tokenSecret_Some _ _ _ Hthis)).
  erewrite try_catch_Throw; [reflexivity|].
  apply bind_Throw, send_Rejected, Hrq.
Qed.

(** *** addData *)

(** C7. [addData d] is local: in every world it returns the handle named
    [d] on the client it was called on, and leaves the world, the log of
    requests included, as it was. *)
Theorem addData_local this d w :
  addData this d w = (Normal {| data_name := d; data_client := this |}, w).
Proof. reflexivity. Qed.

(** *** listModels, listData: failure *)

Lemma listModels_request_fails this w c reason :
  objects w !! this = Some c →
  axios (sent w) (GET (causadbUrl +:+ "/models") (tokenSecret c)) = Rejected reason →
  listModels this w =
    (Throw ServerRequestError, logged (GET (causadbUrl +:+ "/models") (tokenSecret c)) w).
Proof.
  intros Hthis Hrq. unfold listModels, axios_get.
  rewrite (bind_Normal _ _ _ _ _ (get_tokenSecret_Some _ _ _ Hthis)).
  erewrite try_catch_Throw; [reflexivity|].
  apply bind_Throw, send_Rejected, Hrq.
Qed.

Lemma listData_request_fails this w c reason :
  objects w !! this = Some c →
  axios (sent w) (GET (causadbUrl +:+ "/data") (tokenSecret c)) = Rejected reason →
  listData this w =
    (Throw (Error "CausaDB client failed to connect to server"),
     logged (GET (causadbUrl +:+ "/data") (tokenSecret c)) w).
Proof.
  intros Hthis Hrq. unfold listData, axios_get.
  rewrite (bind_Normal _ _ _ _ _ (get_tokenSecret_Some _ _ _ Hthis)).
  erewrite try_catch_Throw; [reflexivity|].
  apply bind_Throw, send_Rejected, Hrq.
Qed.

(** Whatever makes [listData] fail on an existing client, the error is the
    one its [catch] constructs. *)
Lemma listData_Throw this w c e w' :
  objects w !! this = Some c →
  listData this w = (Throw e, w') →
  e = Error "CausaDB client failed to connect to server".
Proof.
  intros Hthis. unfold listData.
  rewrite (bind_Normal _ _ _ _ _ (get_tokenSecret_Some _ _ _ Hthis)).
  unfold try_catch, throw. destruct (bind _ _ w) as [[v|e0] w1]; congruence.
Qed.

(** C10. When the listing of data is rejected, [listData] throws the error
    of message "CausaDB client failed to connect to server"; [getData] on the
    same rejected listing, and [listModels] and [getModel] on their own
    rejected requests, throw the error of message "CausaDB server request
    failed"; the two errors differ. *)
Theorem listData_failure_message this d m w c :
  objects w !! this = Some c →
  (∀ reason,
     axios (sent w) (GET (causadbUrl +:+ "/data") (tokenSecret c)) = Rejected reason →
     (listData this w).1 = Throw (Error "CausaDB client failed to connect to server") ∧
     (getData this d w).1 = Throw (Error "CausaDB server request failed")) ∧
  (∀ reason,
     axios (sent w) (GET (causadbUrl +:+ "/models") (tokenSecret c)) = Rejected reason →
     (listModels this w).1 = Throw (Error "CausaDB server request failed")) ∧
  (∀ reason,
     axios (sent w) (GET (causadbUrl +:+ "/models/" +:+ m) (tokenSecret c)) = Rejected reason →
     (getModel this m w).1 = Throw (Error "CausaDB server request failed")) ∧
  Error "CausaDB client failed to connect to server" ≠ Error "CausaDB server request failed".
Proof.
  intros Hthis. split; [|split; [|split]].
  - intros reason Hrq. split.
    + by rewrite (listData_request_fails _ _ _ _ Hthis Hrq).
    + by rewrite (getData_request_fails _ d _ _ _ Hthis Hrq).
  - intros reason Hrq. by rewrite (listModels_request_fails _ _ _ _ Hthis Hrq).
  - intros reason Hrq. by rewrite (getModel_rejected _ _ _ _ _ Hthis Hrq).
  - discriminate.
Qed.

(** *** The token field *)

Lemma frames_createModel this modelName : frames (createModel this modelName).
Proof. apply frames_Model_create. Qed.

Lemma frames_getModel this modelName : frames (getModel this modelName).
Proof.
  unfold getModel, axios_get.
  auto 8 using frames_send, frames_Model_create with frame.
Qed.

Lemma frames_listModels this : frames (listModels this).
Proof.
  unfold listModels, axios_get.
  apply frames_bind; [auto with frame|]; intros token.
  apply frames_try_catch; [|auto with frame].
  apply frames_bind; [apply frames_send|]; intros response.
  apply frames_bind; [auto with frame|]; intros specs.
  apply frames_Promise_all.
  induction specs as [|modelSpec rest IH]; simpl; constructor;
    [apply frames_Model_create|exact IH].
Qed.

Lemma frames_getData this dataName : frames (getData this dataName).
Proof.
  unfold getData, axios_get.
  apply frames_bind; [auto with frame|]; intros token.
  apply frames_try_catch; [|auto with frame].
  apply frames_bind; [apply frames_send|]; intros response.
  apply frames_bind; [auto with frame|]; intros specs.
  case_decide; auto with frame.
Qed.

Lemma frames_listData this : frames (listData this).
Proof.
  unfold listData, axios_get.
  auto 8 using frames_send with frame.
Qed.

Lemma setToken_Throw_frames this s w e w' :
  setToken this s w = (Throw e, w') → objects w' = objects w.
Proof.
  unfold setToken, axios_get, send, bind.
  destruct (axios _ _) as [response|reason]; [|by intros [= _ <-]].
  case_decide; [|by intros [= _ <-]].
  unfold set_tokenSecret, logged; simpl.
  destruct (objects w !! this); [done|by intros [= _ <-]].
Qed.

(** C8. The object store, hence every client's [tokenSecret], is the same
    after [createModel], [addData], [getModel], [listModels], [getData] and
    [listData] as before, however they complete; and after a [setToken] that
    fails.  Only a [setToken] that succeeds writes the field. *)
Theorem token_written_only_by_setToken this :
  (∀ modelName, frames (createModel this modelName)) ∧
  (∀ dataName, frames (addData this dataName)) ∧
  (∀ modelName, frames (getModel this modelName)) ∧
  frames (listModels this) ∧
  (∀ dataName, frames (getData this dataName)) ∧
  frames (listData this) ∧
  (∀ s w e w', setToken this s w = (Throw e, w') → objects w' = objects w).
Proof.
  repeat split; intros.
  - apply frames_createModel.
  - apply frames_getModel.
  - apply frames_listModels.
  - apply frames_getData.
  - apply frames_listData.
  - by eapply setToken_Throw_frames.
Qed.

(** * Further properties of the client *)

(** ** The requests a call sends *)

Lemma grows_Model_create modelName client : grows (Model_create modelName client).
Proof.
  intros w. unfold Model_create, bind, try_catch, get_tokenSecret, send, throw, ret.
  destruct (objects w !! client); [|done].
  destruct (axios _ _); simpl; by apply prefix_app_r.
Qed.

Lemma grows_Promise_all {A} (ps : list (M A)) : Forall grows ps → grows (Promise_all ps).
Proof.
  induction 1 as [|p ps Hp _ IH]; intros w; [done|].
  simpl. specialize (Hp w). destruct (p w) as [c1 w1]. specialize (IH w1).
  destruct (Promise_all ps w1) as [cs w2]. simpl in *. by etrans.
Qed.

Lemma listData_sent this w c :
  objects w !! this = Some c →
  sent (listData this w).2 = (sent w ++ [GET (causadbUrl +:+ "/data") (tokenSecret c)])%list.
Proof.
  intros Hthis. unfold listData, axios_get.
  rewrite (bind_Normal _ _ _ _ _ (get_tokenSecret_Some _ _ _ Hthis)).
  unfold try_catch, bind, send, array_of, ret, throw.
  destruct (axios _ _) as [response|reason]; [|done].
  by destruct (body_data (data response)).
Qed.

Lemma getData_sent this d w c :
  objects w !! this = Some c →
  sent (getData this d w).2 = (sent w ++ [GET (causadbUrl +:+ "/data") (tokenSecret c)])%list.
Proof.
  intros Hthis. unfold getData, axios_get.
  rewrite (bind_Normal _ _ _ _ _ (get_tokenSecret_Some _ _ _ Hthis)).
  unfold try_catch, bind, send, array_of, ret, throw.
  destruct (axios _ _) as [response|reason]; [|done].
  destruct (body_data (data response)); [|done]. by case_decide.
Qed.

Lemma listModels_sent this w c :
  objects w !! this = Some c →
  ∃ rest, sent (listModels this w).2 =
          (sent w ++ GET (causadbUrl +:+ "/models") (tokenSecret c) :: rest)%list.
Proof.
  intros Hthis. unfold listModels, axios_get.
  rewrite (bind_Normal _ _ _ _ _ (get_tokenSecret_Some _ _ _ Hthis)).
  unfold try_catch, bind, send, array_of, ret, throw.
  destruct (axios _ _) as [response|reason]; [|by exists []].
  destruct (body_models (data response)) as [specs|]; [|by exists []].
  assert (Hall : grows (Promise_all
                   (map (λ modelSpec, Model_create (name modelSpec) this) specs))).
  { apply grows_Promise_all.
    induction specs; simpl; constructor; [apply grows_Model_create|done]. }
  destruct (Hall (logged (GET (causadbUrl +:+ "/models") (tokenSecret c)) w)) as [rest Hrest].
  exists rest.
  destruct (Promise_all _ _) as [[handles|e] w1]; simpl in *;
    rewrite Hrest; by rewrite <- app_assoc.
Qed.

Lemma getModel_sent this m w c :
  objects w !! this = Some c →
  ∃ rest, sent (getModel this m w).2 =
          (sent w ++ GET (causadbUrl +:+ "/models/" +:+ m) (tokenSecret c) :: rest)%list.
Proof.
  intros Hthis. unfold getModel, axios_get.
  rewrite (bind_Normal _ _ _ _ _ (get_tokenSecret_Some _ _ _ Hthis)).
  unfold try_catch, bind, send, ret, throw.
  destruct (axios _ _) as [response|reason]; [|by exists []].
  destruct (grows_Model_create m this
              (logged (GET (causadbUrl +:+ "/models/" +:+ m) (tokenSecret c)) w))
    as [rest Hrest].
  exists rest. rewrite Hrest. simpl. by rewrite <- app_assoc.
Qed.

(** X1. An authenticated call on an existing client sends its request with
    the token stored in the client at that moment: [listData] and [getData]
    send exactly one request, the listing of data, however they complete;
    the first request of [listModels] is the listing of models and the first
    request of [getModel] is the lookup of the model. *)
Theorem stored_token_is_sent this d m w c :
  objects w !! this = Some c →
  sent (listData this w).2 = (sent w ++ [GET (causadbUrl +:+ "/data") (tokenSecret c)])%list ∧
  sent (getData this d w).2 = (sent w ++ [GET (causadbUrl +:+ "/data") (tokenSecret c)])%list ∧
  (∃ rest, sent (listModels this w).2 =
           (sent w ++ GET (causadbUrl +:+ "/models") (tokenSecret c) :: rest)%list) ∧
  (∃ rest, sent (getModel this m w).2 =
           (sent w ++ GET (causadbUrl +:+ "/models/" +:+ m) (tokenSecret c) :: rest)%list).
Proof.
  intros Hthis. split; [by apply listData_sent|]. split; [by apply getData_sent|].
  split; [by apply listModels_sent|by apply getModel_sent].
Qed.

(** X2. [setToken s] sends exactly one request however it completes: the
    account check, carrying the secret it was given and not the token the
    client holds. *)
Theorem setToken_sends_account_check this s w :
  sent (setToken this s w).2 = (sent w ++ [GET (causadbUrl +:+ "/account") (Some s)])%list.
Proof.
  unfold setToken, axios_get, bind, send.
  destruct (axios _ _) as [response|reason]; [|done].
  case_decide; [|done].
  unfold set_tokenSecret, logged; simpl. by destruct (objects w !! this).
Qed.

(** X3. Once [setToken s] has succeeded, the next [listData] or [getData] on
    that client sends its listing request with the token [s]. *)
Theorem setToken_then_listing this s d w c response :
  objects w !! this = Some c →
  axios (sent w) (GET (causadbUrl +:+ "/account") (Some s)) = Fulfilled response →
  status response = 200%Z →
  ∃ w1, setToken this s w = (Normal true, w1) ∧
        sent (listData this w1).2 =
          (sent w ++ [GET (causadbUrl +:+ "/account") (Some s);
                      GET (causadbUrl +:+ "/data") (Some s)])%list ∧
        sent (getData this d w1).2 =
          (sent w ++ [GET (causadbUrl +:+ "/account") (Some s);
                      GET (causadbUrl +:+ "/data") (Some s)])%list.
Proof.
  intros Hthis Hrq Hst. eexists. split; [by eapply setToken_200|].
  split.
  - erewrite listData_sent by (simpl; apply lookup_insert_eq).
    simpl. by rewrite <- app_assoc.
  - erewrite getData_sent by (simpl; apply lookup_insert_eq).
    simpl. by rewrite <- app_assoc.
Qed.

(** ** Construction *)

(** X4. [new CausaDB()] never fails and sends nothing; the client it returns
    is a new object holding a null token, and the objects that existed are
    as they were. *)
Theorem new_CausaDB_fresh w :
  ∃ this w', new_CausaDB w = (Normal this, w') ∧
             objects w !! this = None ∧
             token_of w' this = Some None ∧
             (∀ other, other ≠ this → objects w' !! other = objects w !! other) ∧
             sent w' = sent w.
Proof.
  eexists _, _. split; [reflexivity|]. split; [|split; [|split]].
  - apply not_elem_of_dom, is_fresh.
  - unfold token_of; simpl. by rewrite lookup_insert_eq.
  - intros other Hne. simpl. by rewrite lookup_insert_ne.
  - done.
Qed.

(** X5. A client on which [setToken] has not been called sends a null token:
    the first [listData] or [getData] of a new client is the listing request
    with no token. *)
Theorem new_client_sends_null_token d w :
  ∃ this w1, new_CausaDB w = (Normal this, w1) ∧
             sent (listData this w1).2 =
               (sent w ++ [GET (causadbUrl +:+ "/data") None])%list ∧
             sent (getData this d w1).2 =
               (sent w ++ [GET (causadbUrl +:+ "/data") None])%list.
Proof.
  eexists _, _. split; [reflexivity|]. split.
  - by erewrite listData_sent by (simpl; apply lookup_insert_eq).
  - by erewrite getData_sent by (simpl; apply lookup_insert_eq).
Qed.

(** ** Several clients, several calls *)

(** X6. [setToken] on one client leaves every other client as it was,
    whether it succeeds or fails. *)
Theorem setToken_other_clients this other s w :
  other ≠ this →
  objects (setToken this s w).2 !! other = objects w !! other.
Proof.
  intros Hne. unfold setToken, axios_get, bind, send.
  destruct (axios _ _) as [response|reason]; [|done].
  case_decide; [|done].
  unfold set_tokenSecret, logged; simpl.
  destruct (objects w !! this); [|done]. simpl. by rewrite lookup_insert_ne.
Qed.

Lemma setToken_non_200 this s w :
  non_200 (axios (sent w) (GET (causadbUrl +:+ "/account") (Some s))) →
  ∃ e, setToken this s w = (Throw e, logged (GET (causadbUrl +:+ "/account") (Some s)) w).
Proof.
  intros Hno. unfold setToken, axios_get, bind, send.
  destruct (axios _ _) as [response|reason]; simpl in Hno; [|by eexists].
  rewrite decide_False by done. by eexists.
Qed.

(** X7. A refused [setToken] after an accepted one keeps the accepted token:
    if [setToken s1] succeeds and a later [setToken s2] fails, the client
    still holds [s1]. *)
Theorem setToken_refused_keeps_token this s1 s2 w c response1 :
  objects w !! this = Some c →
  axios (sent w) (GET (causadbUrl +:+ "/account") (Some s1)) = Fulfilled response1 →
  status response1 = 200%Z →
  non_200 (axios (sent w ++ [GET (causadbUrl +:+ "/account") (Some s1)])
                 (GET (causadbUrl +:+ "/account") (Some s2))) →
  ∃ w1 e w2, setToken this s1 w = (Normal true, w1) ∧
             setToken this s2 w1 = (Throw e, w2) ∧
             token_of w2 this = Some (Some s1).
Proof.
  intros Hthis Hrq1 Hst1 Hno.
  pose proof (setToken_200 this s1 w c response1 Hthis Hrq1 Hst1) as Hrun1.
  set (w1 := {| objects := <[this := {| tokenSecret := Some s1 |}]> (objects w);
                sent := sent w ++ [GET (causadbUrl +:+ "/account") (Some s1)] |}) in *.
  destruct (setToken_non_200 this s2 w1 Hno) as [e Hrun2].
  exists w1, e, (logged (GET (causadbUrl +:+ "/account") (Some s2)) w1).
  split; [exact Hrun1|]. split; [exact Hrun2|]. apply token_of_insert.
Qed.

(** ** Listings *)

Lemma listData_answered this w c response specs :
  objects w !! this = Some c →
  axios (sent w) (GET (causadbUrl +:+ "/data") (tokenSecret c)) = Fulfilled response →
  body_data (data response) = Some specs →
  listData this w =
    (Normal (map (λ dataSpec, {| data_name := name dataSpec; data_client := this |}) specs),
     logged (GET (causadbUrl +:+ "/data") (tokenSecret c)) w).
Proof.
  intros Hthis Hrq Hbody. unfold listData, axios_get.
  rewrite (bind_Normal _ _ _ _ _ (get_tokenSecret_Some _ _ _ Hthis)).
  apply try_catch_Normal.
  rewrite (bind_Normal _ _ _ _ _ (send_Fulfilled _ _ _ Hrq)).
  by rewrite Hbody.
Qed.

(** X8. When the listing of data is answered with an array of entries,
    [listData] returns one handle per entry, named after the entries in the
    order of the listing and all on the client it was called on; an empty
    listing gives the empty list.  The status of the answer is not looked at. *)
Theorem listData_handles this w c response specs :
  objects w !! this = Some c →
  axios (sent w) (GET (causadbUrl +:+ "/data") (tokenSecret c)) = Fulfilled response →
  body_data (data response) = Some specs →
  ∃ handles, listData this w =
               (Normal handles, logged (GET (causadbUrl +:+ "/data") (tokenSecret c)) w) ∧
             map data_name handles = map name specs ∧
             Forall (λ handle, data_client handle = this) handles ∧
             length handles = length specs.
Proof.
  intros Hthis Hrq Hbody. eexists. split; [by eapply listData_answered|].
  split; [|split].
  - by rewrite map_map.
  - clear Hbody. induction specs; simpl; by constructor.
  - by rewrite length_map.
Qed.

(** X9. On an existing client, [listData] fails with no other error than
    "CausaDB client failed to connect to server", and [getData] and
    [listModels] with no other error than "CausaDB server request failed":
    the rejection of axios, a type error on a malformed body and the
    not-found error never reach the caller. *)
Theorem failures_are_uniform this d w c :
  objects w !! this = Some c →
  (∀ e w', listData this w = (Throw e, w') →
           e = Error "CausaDB client failed to connect to server") ∧
  (∀ e w', getData this d w = (Throw e, w') → e = ServerRequestError) ∧
  (∀ e w', listModels this w = (Throw e, w') → e = ServerRequestError).
Proof.
  intros Hthis. unfold ServerRequestError. split; [|split]; intros e w'.
  - unfold listData.
    rewrite (bind_Normal _ _ _ _ _ (get_tokenSecret_Some _ _ _ Hthis)).
    unfold try_catch, throw. destruct (bind _ _ w) as [[v|e0] w1]; congruence.
  - unfold getData.
    rewrite (bind_Normal _ _ _ _ _ (get_tokenSecret_Some _ _ _ Hthis)).
    unfold try_catch, throw. destruct (bind _ _ w) as [[v|e0] w1]; congruence.
  - unfold listModels.
    rewrite (bind_Normal _ _ _ _ _ (get_tokenSecret_Some _ _ _ Hthis)).
    unfold try_catch, throw. destruct (bind _ _ w) as [[v|e0] w1]; congruence.
Qed.

(** X10. An answered listing whose body has no array where the client reads
    one is a failure like a rejected request: without [data] in the body
    [listData] and [getData] fail with their own errors, without [models]
    [listModels] fails and the factory is not called; one request is sent. *)
Theorem listing_without_array this d w c :
  objects w !! this = Some c →
  (∀ response,
     axios (sent w) (GET (causadbUrl +:+ "/data") (tokenSecret c)) = Fulfilled response →
     body_data (data response) = None →
     listData this w =
       (Throw (Error "CausaDB client failed to connect to server"),
        logged (GET (causadbUrl +:+ "/data") (tokenSecret c)) w) ∧
     getData this d w =
       (Throw ServerRequestError, logged (GET (causadbUrl +:+ "/data") (tokenSecret c)) w)) ∧
  (∀ response,
     axios (sent w) (GET (causadbUrl +:+ "/models") (tokenSecret c)) = Fulfilled response →
     body_models (data response) = None →
     listModels this w =
       (Throw ServerRequestError, logged (GET (causadbUrl +:+ "/models") (tokenSecret c)) w)).
Proof.
  intros Hthis. split; [intros response Hrq Hbody; split|intros response Hrq Hbody].
  - unfold listData, axios_get.
    rewrite (bind_Normal _ _ _ _ _ (get_tokenSecret_Some _ _ _ Hthis)).
    erewrite try_catch_Throw; [reflexivity|].
    rewrite (bind_Normal _ _ _ _ _ (send_Fulfilled _ _ _ Hrq)). by rewrite Hbody.
  - unfold getData, axios_get.
    rewrite (bind_Normal _ _ _ _ _ (get_tokenSecret_Some _ _ _ Hthis)).
    erewrite try_catch_Throw; [reflexivity|].
    rewrite (bind_Normal _ _ _ _ _ (send_Fulfilled _ _ _ Hrq)). by rewrite Hbody.
  - unfold listModels, axios_get.
    rewrite (bind_Normal _ _ _ _ _ (get_tokenSecret_Some _ _ _ Hthis)).
    erewrite try_catch_Throw; [reflexivity|].
    rewrite (bind_Normal _ _ _ _ _ (send_Fulfilled _ _ _ Hrq)). by rewrite Hbody.
Qed.

(** X11. [getData d] returns exactly when [listData], run in its place, would
    return a list with a handle named [d]; the handle it returns is then the
    one named [d] on the client, and the world it leaves is the one
    [listData] would leave. *)
Theorem getData_iff_listed this d w c handle w' :
  objects w !! this = Some c →
  getData this d w = (Normal handle, w') ↔
  handle = {| data_name := d; data_client := this |} ∧
  ∃ handles, listData this w = (Normal handles, w') ∧ d ∈ map data_name handles.
Proof.
  intros Hthis. unfold getData, listData, axios_get.
  rewrite !(bind_Normal _ _ _ _ _ (get_tokenSecret_Some _ _ _ Hthis)).
  unfold try_catch, bind, send, array_of, ret, throw.
  destruct (axios _ _) as [response|reason]; [|split; [done|by intros (_ & ? & ? & _)]].
  destruct (body_data (data response)) as [specs|];
    [|split; [done|by intros (_ & ? & ? & _)]].
  split.
  - case_decide as Hin; [|done]. intros [= <- <-]. split; [done|].
    eexists. split; [done|]. by rewrite map_map.
  - intros (-> & handles & [= <- <-] & Hin). rewrite map_map in Hin.
    by rewrite decide_True.
Qed.

(** X12. When the listing of models is answered with an empty array,
    [listModels] returns the empty list and the listing is the only request
    sent: the factory is not called. *)
Theorem listModels_empty this w c response :
  objects w !! this = Some c →
  axios (sent w) (GET (causadbUrl +:+ "/models") (tokenSecret c)) = Fulfilled response →
  body_models (data response) = Some [] →
  listModels this w = (Normal [], logged (GET (causadbUrl +:+ "/models") (tokenSecret c)) w).
Proof.
  intros Hthis Hrq Hbody. unfold listModels, axios_get.
  rewrite (bind_Normal _ _ _ _ _ (get_tokenSecret_Some _ _ _ Hthis)).
  apply try_catch_Normal.
  rewrite (bind_Normal _ _ _ _ _ (send_Fulfilled _ _ _ Hrq)). by rewrite Hbody.
Qed.

(** X13. [getModel] looks at nothing in the answer to its lookup: as soon as
    the lookup is answered, with whatever status and body, its result is the
    result of the factory, called after the lookup with the same name and
    client. *)
Theorem getModel_answered this m w c response :
  objects w !! this = Some c →
  axios (sent w) (GET (causadbUrl +:+ "/models/" +:+ m) (tokenSecret c)) = Fulfilled response →
  getModel this m w =
    Model_create m this (logged (GET (causadbUrl +:+ "/models/" +:+ m) (tokenSecret c)) w).
Proof.
  intros Hthis Hrq. unfold getModel, axios_get.
  rewrite (bind_Normal _ _ _ _ _ (get_tokenSecret_Some _ _ _ Hthis)).
  erewrite bind_Normal; [reflexivity|].
  apply try_catch_Normal. by rewrite (bind_Normal _ _ _ _ _ (send_Fulfilled _ _ _ Hrq)).
Qed.

End Client.

(** * The properties on the example services *)

(** C1. With a data listing that is answered and holds only "y",
    [getData "x"] does not fail with the not-found error it constructs: it
    fails with the server-request error, exactly as it does when the listing
    itself is rejected. *)
Theorem getData_not_found_folded :
  ("x" ∉ map name [Build_Spec "y"]) ∧
  (getData example_url (service_ok [] ["y"]) client0 "x" world0).1 = Throw ServerRequestError ∧
  (getData example_url service_unauthorized client0 "x" world0).1 = Throw ServerRequestError ∧
  NotFoundError "x" ≠ ServerRequestError.
Proof.
  assert (Habsent : "x" ∉ map name [Build_Spec "y"]).
  { simpl. intros Hin. apply list_elem_of_singleton in Hin. discriminate. }
  split; [exact Habsent|]. split; [|split].
  - by rewrite (getData_absent example_url (service_ok [] ["y"]) client0 "x" world0
                  _ _ [Build_Spec "y"] eq_refl eq_refl eq_refl Habsent).
  - by rewrite (getData_request_fails example_url service_unauthorized client0 "x" world0
                  _ _ eq_refl eq_refl).
  - discriminate.
Qed.

(** C2. At the failing input: the service turns the account check of
    [setToken "bad-token"] down with status 401 and axios rejects the
    promise.  The stored token is left as it was, but [setToken] fails with
    the rejection of axios, not with the "Invalid token" error that its
    [else] branch constructs. *)
Lemma setToken_rejected_not_AuthenticationError :
  non_200 (service_unauthorized (sent world0)
             (GET (example_url +:+ "/account") (Some "bad-token"))) ∧
  (setToken example_url service_unauthorized client0 "bad-token" world0).1 =
    Throw (AxiosErr {| axios_message := "Request failed with status code 401";
                       axios_status := Some 401%Z |}) ∧
  (setToken example_url service_unauthorized client0 "bad-token" world0).1 ≠
    Throw AuthenticationError ∧
  objects (setToken example_url service_unauthorized client0 "bad-token" world0).2 =
    objects world0.
Proof.
  split; [exact I|]. split; [reflexivity|]. split; [discriminate|reflexivity].
Qed.

(** C5, as stated, fails: with the listing of models answered by "a" and
    "b" and the create calls of the factory refused, [listModels] returns no
    handle; it fails with the server-request error. *)
Lemma listModels_factory_refused :
  service_listing_only (sent world0) (GET (example_url +:+ "/models") None) =
    Fulfilled {| status := 200;
                 data := {| body_models := Some [Build_Spec "a"; Build_Spec "b"];
                            body_data := Some [] |} |} ∧
  (listModels example_url service_listing_only client0 world0).1 = Throw ServerRequestError ∧
  (∀ handles,
     (listModels example_url service_listing_only client0 world0).1 ≠ Normal handles).
Proof. split; [reflexivity|]. split; [reflexivity|discriminate]. Qed.

(** [setToken_refused] on the service that answers the account check with
    status 204. *)
Lemma setToken_refused_witness :
  non_200 (service_no_content (sent world0)
             (GET (example_url +:+ "/account") (Some "bad-token"))) ∧
  (setToken example_url service_no_content client0 "bad-token" world0).1 =
    Throw AuthenticationError ∧
  objects (setToken example_url service_no_content client0 "bad-token" world0).2 =
    objects world0.
Proof.
  assert (Hno : non_200 (service_no_content (sent world0)
                           (GET (example_url +:+ "/account") (Some "bad-token"))))
    by (simpl; lia).
  split; [exact Hno|].
  destruct (setToken_refused example_url service_no_content client0 "bad-token" world0 Hno)
    as (e & w' & Hrun & Hobjects & Hkind).
  rewrite Hrun; simpl. split; [|exact Hobjects].
  f_equal. apply Hkind. reflexivity.
Defined.

(** [setToken_accepted] on a service that accepts every token. *)
Lemma setToken_accepted_witness :
  (setToken example_url (service_ok [] []) client0 "test-token-secret" world0).1 = Normal true ∧
  token_of (setToken example_url (service_ok [] []) client0 "test-token-secret" world0).2
           client0 = Some (Some "test-token-secret").
Proof.
  destruct (setToken_accepted example_url (service_ok [] []) client0 "test-token-secret" world0
              _ _ eq_refl eq_refl eq_refl) as (w' & Hrun & Htoken & _).
  rewrite Hrun. split; [reflexivity|exact Htoken].
Defined.

(** [setToken_overwrites] on a service that accepts every token. *)
Lemma setToken_overwrites_witness :
  ∃ w1 w2,
    setToken example_url (service_ok [] []) client0 "first" world0 = (Normal true, w1) ∧
    setToken example_url (service_ok [] []) client0 "second" w1 = (Normal true, w2) ∧
    token_of w2 client0 = Some (Some "second") ∧
    token_of w2 client0 ≠ Some (Some "first").
Proof.
  destruct (setToken_overwrites example_url (service_ok [] []) client0 "first" "second" world0
              _ _ _ eq_refl eq_refl eq_refl eq_refl eq_refl)
    as (w1 & w2 & Hrun1 & _ & Hrun2 & Htoken & Hne).
  exists w1, w2. repeat split; [exact Hrun1|exact Hrun2|exact Htoken|].
  apply Hne. discriminate.
Defined.

(** [getModel_request_fails] on the service that turns every request down. *)
Lemma getModel_request_fails_witness :
  (getModel example_url service_unauthorized client0 "test-model" world0).1 =
    Throw ServerRequestError ∧
  sent (getModel example_url service_unauthorized client0 "test-model" world0).2 =
    [GET (example_url +:+ "/models/" +:+ "test-model") None].
Proof.
  destruct (getModel_request_fails example_url service_unauthorized client0 "test-model" world0
              _ _ eq_refl eq_refl) as (w' & Hrun & _ & Hsent & _).
  rewrite Hrun. split; [reflexivity|exact Hsent].
Defined.

(** [listModels_handles] on a service reporting the models "a" and "b". *)
Lemma listModels_handles_witness :
  (listModels example_url (service_ok ["a"; "b"] []) client0 world0).1 =
    Normal [ {| model_name := "a"; model_client := client0 |};
             {| model_name := "b"; model_client := client0 |} ].
Proof.
  destruct (listModels_handles example_url (service_ok ["a"; "b"] []) client0 world0
              _ _ _ eq_refl eq_refl eq_refl) as [Hrun _].
  destruct (Hrun eq_refl) as (handles & -> & -> & _).
  reflexivity.
Defined.

(** [getData_present] on a service listing the data "x" and "z". *)
Lemma getData_present_witness :
  getData example_url (service_ok [] ["x"; "z"]) client0 "x" world0 =
    (Normal {| data_name := "x"; data_client := client0 |},
     {| objects := objects world0; sent := [GET (example_url +:+ "/data") None] |}).
Proof.
  refine (getData_present example_url (service_ok [] ["x"; "z"]) client0 "x" world0
            _ _ _ eq_refl eq_refl eq_refl _).
  simpl. apply list_elem_of_here.
Defined.

(** [listData_failure_message] on the service that turns every request
    down. *)
Lemma listData_failure_message_witness :
  (listData example_url service_unauthorized client0 world0).1 =
    Throw (Error "CausaDB client failed to connect to server") ∧
  (getData example_url service_unauthorized client0 "test-data" world0).1 =
    Throw (Error "CausaDB server request failed") ∧
  (listModels example_url service_unauthorized client0 world0).1 =
    Throw (Error "CausaDB server request failed") ∧
  (getModel example_url service_unauthorized client0 "test-model" world0).1 =
    Throw (Error "CausaDB server request failed").
Proof.
  destruct (listData_failure_message example_url service_unauthorized client0
              "test-data" "test-model" world0 _ eq_refl)
    as (Hdata & Hmodels & Hmodel & _).
  destruct (Hdata _ eq_refl) as [HlistData HgetData].
  split; [exact HlistData|]. split; [exact HgetData|].
  split; [exact (Hmodels _ eq_refl)|exact (Hmodel _ eq_refl)].
Defined.

(** * The further properties on the example services *)

(** [stored_token_is_sent] on the authenticated client of [world1]. *)
Lemma stored_token_is_sent_witness :
  sent (listData example_url service_unauthorized client1 world1).2 =
    [GET (example_url +:+ "/data") (Some "other-secret")] ∧
  sent (getData example_url service_unauthorized client1 "test-data" world1).2 =
    [GET (example_url +:+ "/data") (Some "other-secret")].
Proof.
  destruct (stored_token_is_sent example_url service_unauthorized client1
              "test-data" "test-model" world1 _ eq_refl) as (HlistData & HgetData & _).
  split; [exact HlistData|exact HgetData].
Defined.

(** [setToken_then_listing] on a service that accepts every token. *)
Lemma setToken_then_listing_witness :
  ∃ w1, setToken example_url (service_ok [] []) client0 "test-token-secret" world0 =
          (Normal true, w1) ∧
        sent (listData example_url (service_ok [] []) client0 w1).2 =
          [GET (example_url +:+ "/account") (Some "test-token-secret");
           GET (example_url +:+ "/data") (Some "test-token-secret")].
Proof.
  destruct (setToken_then_listing example_url (service_ok [] []) client0
              "test-token-secret" "test-data" world0 _ _ eq_refl eq_refl eq_refl)
    as (w1 & Hrun & HlistData & _).
  exists w1. split; [exact Hrun|exact HlistData].
Defined.

(** [setToken_other_clients]: authenticating the first client of [world1]
    leaves the second one its token. *)
Lemma setToken_other_clients_witness :
  client1 ≠ client0 ∧
  objects (setToken example_url (service_ok [] []) client0 "test-token-secret" world1).2
    !! client1 = Some {| tokenSecret := Some "other-secret" |}.
Proof.
  assert (Hne : client1 ≠ client0) by discriminate.
  split; [exact Hne|].
  rewrite (setToken_other_clients example_url (service_ok [] []) client0 client1
             "test-token-secret" world1 Hne).
  reflexivity.
Defined.

(** [setToken_refused_keeps_token] on the service that accepts only its
    first request. *)
Lemma setToken_refused_keeps_token_witness :
  ∃ w1 e w2,
    setToken example_url service_first_only client0 "first" world0 = (Normal true, w1) ∧
    setToken example_url service_first_only client0 "second" w1 = (Throw e, w2) ∧
    token_of w2 client0 = Some (Some "first").
Proof.
  exact (setToken_refused_keeps_token example_url service_first_only client0
           "first" "second" world0 _ _ eq_refl eq_refl eq_refl I).
Defined.

(** [listData_handles] on a service listing the data "x" and "z". *)
Lemma listData_handles_witness :
  ∃ handles,
    (listData example_url (service_ok [] ["x"; "z"]) client0 world0).1 = Normal handles ∧
    map data_name handles = ["x"; "z"].
Proof.
  destruct (listData_handles example_url (service_ok [] ["x"; "z"]) client0 world0
              _ _ _ eq_refl eq_refl eq_refl) as (handles & Hrun & Hnames & _).
  exists handles. rewrite Hrun. split; [reflexivity|exact Hnames].
Defined.

(** [failures_are_uniform] on the service that turns every request down. *)
Lemma failures_are_uniform_witness :
  (getData example_url service_unauthorized client0 "test-data" world0).1 =
    Throw ServerRequestError.
Proof.
  destruct (getData example_url service_unauthorized client0 "test-data" world0)
    as [[handle|e] w'] eqn:Hrun.
  - vm_compute in Hrun. discriminate.
  - destruct (failures_are_uniform example_url service_unauthorized client0
                "test-data" world0 _ eq_refl) as (_ & HgetData & _).
    simpl. f_equal. exact (HgetData e w' Hrun).
Defined.

(** [listing_without_array] on the service that answers with an empty body. *)
Lemma listing_without_array_witness :
  (listData example_url service_no_content client0 world0).1 =
    Throw (Error "CausaDB client failed to connect to server") ∧
  (getData example_url service_no_content client0 "test-data" world0).1 =
    Throw ServerRequestError ∧
  (listModels example_url service_no_content client0 world0).1 = Throw ServerRequestError.
Proof.
  destruct (listing_without_array example_url service_no_content client0 "test-data"
              world0 _ eq_refl) as [Hdata Hmodels].
  destruct (Hdata _ eq_refl eq_refl) as [HlistData HgetData].
  rewrite HlistData, HgetData, (Hmodels _ eq_refl eq_refl).
  split; [reflexivity|]. split; reflexivity.
Defined.

(** [getData_iff_listed] on a service listing the data "x" and "z": what
    [listData] returns there makes [getData "z"] return. *)
Lemma getData_iff_listed_witness :
  getData example_url (service_ok [] ["x"; "z"]) client0 "z" world0 =
    (Normal {| data_name := "z"; data_client := client0 |},
     logged (GET (example_url +:+ "/data") None) world0).
Proof.
  apply (getData_iff_listed example_url (service_ok [] ["x"; "z"]) client0 "z" world0
           _ _ _ eq_refl).
  split; [reflexivity|].
  eexists. split; [reflexivity|].
  simpl. apply list_elem_of_further, list_elem_of_here.
Defined.

(** [listModels_empty] on a service reporting no model. *)
Lemma listModels_empty_witness :
  listModels example_url (service_ok [] []) client0 world0 =
    (Normal [], logged (GET (example_url +:+ "/models") None) world0).
Proof.
  exact (listModels_empty example_url (service_ok [] []) client0 world0
           _ _ eq_refl eq_refl eq_refl).
Defined.

(** [getModel_answered] on the service that answers with status 204 and an
    empty body: the handle is returned all the same. *)
Lemma getModel_answered_witness :
  (getModel example_url service_no_content client0 "test-model" world0).1 =
    Normal {| model_name := "test-model"; model_client := client0 |}.
Proof.
  rewrite (getModel_answered example_url service_no_content client0 "test-model" world0
             _ _ eq_refl eq_refl).
  reflexivity.
Defined.
